(** * The Euler characteristic curve exercise: [compute_ecc]

    A shallow embedding of the one function the notebook
    [ECT_exercises_questions.ipynb] defines, together with the contract the
    written specification gives for it, and the comparison of the two.

    The notebook defines

    <<
      def compute_ecc(data, starting_point, end_time, normal):
          (a docstring, and no statement after it)
    >>

    and nothing else: every other code cell holds comments or a cell magic. *)

From Stdlib Require Import ZArith QArith List Lia.
From Stdlib Require Import Floats.SpecFloat.
From stdpp Require Import gmap strings.

Local Open Scope Z_scope.
Set Warnings "-register-all".

(** ** Python values, objects and the interpreter state *)

Module Py.

(** Heap addresses of mutable objects. *)
Definition loc := positive.

(** Values a name can be bound to.  Numbers, strings and tuples are
    immutable and carried by value; a list is a heap object and is
    carried by reference, so that aliasing and mutation are visible.
    A float is an IEEE-754 datum: zero, infinity, NaN or [m * 2^e]. *)
Inductive value : Type :=
| VNone
| VBool (b : bool)
| VInt (z : Z)
| VFloat (f : spec_float)
| VStr (s : string)
| VTuple (vs : list value)
| VRef (l : loc).

(** Heap objects: Python lists (array-likes are modelled as lists). *)
Inductive obj : Type :=
| OList (vs : list value).

(** An exception is identified by the name of its class. *)
Record exn : Type := mkExn { exn_class : string; exn_msg : string }.

(** Everything a call could read or change besides its arguments. *)
Record world : Type := mkWorld {
  heap : gmap loc obj;
  globals : gmap string value;
  stdout : list string
}.

(** How a computation ends. *)
Inductive outcome (A : Type) : Type :=
| Returned (a : A)
| Raised (e : exn).
Arguments Returned {A} a.
Arguments Raised {A} e.

(** State and exception monad. *)
Definition M (A : Type) : Type := world -> outcome A * world.

Definition ret {A} (a : A) : M A := fun w => (Returned a, w).

Definition raise {A} (e : exn) : M A := fun w => (Raised e, w).

Definition bind {A B} (c : M A) (k : A -> M B) : M B :=
  fun w =>
    match c w with
    | (Returned a, w') => k a w'
    | (Raised e, w') => (Raised e, w')
    end.

Notation "x <- c ;; k" := (bind c (fun x => k))
  (at level 100, c at next level, right associativity).

(** How a block of statements ends: control runs off its end, or a
    [return] statement was executed. *)
Inductive completion : Type :=
| Normal
| Return (v : value).

(** A function object made by [def]: the docstring is stored as
    [__doc__] and is not part of the executed body. *)
Record pyfunc : Type := mkFunc {
  fn_name : string;
  fn_params : list string;
  fn_doc : option string;
  fn_body : gmap string value -> M completion
}.

(** Positional arguments are bound to the parameters, one for one. *)
Fixpoint bind_params (ps : list string) (args : list value)
  : option (gmap string value) :=
  match ps, args with
  | [], [] => Some ∅
  | p :: ps', a :: args' =>
      match bind_params ps' args' with
      | Some env => Some (<[p := a]> env)
      | None => None
      end
  | _, _ => None
  end.

(** A call: a wrong number of arguments raises [TypeError]; a body that
    runs off its end returns [None]. *)
Definition call (f : pyfunc) (args : list value) : M value :=
  match bind_params (fn_params f) args with
  | None => raise (mkExn "TypeError" (fn_name f))
  | Some env =>
      c <- fn_body f env ;;
      match c with
      | Normal => ret VNone
      | Return v => ret v
      end
  end.

(** The observable predicates the claims speak of. *)

Definition fails_with {A} (r : outcome A * world) (cls : string) : Prop :=
  exists msg, fst r = Raised (mkExn cls msg).

Definition fails {A} (r : outcome A * world) : Prop :=
  exists e, fst r = Raised e.

(** [v] is a sequence with the items [l] in the world [w]: a list on the
    heap or a tuple. *)
Definition as_seq (w : world) (v : value) : option (list value) :=
  match v with
  | VRef a =>
      match heap w !! a with
      | Some (OList l) => Some l
      | None => None
      end
  | VTuple vs => Some vs
  | _ => None
  end.

Definition denotes_seq (w : world) (v : value) (l : list value) : Prop :=
  as_seq w v = Some l.

Definition returns_seq (r : outcome value * world) (l : list value) : Prop :=
  exists v, fst r = Returned v /\ denotes_seq (snd r) v l.

End Py.

Import Py.

(** ** The function of the notebook *)

Definition compute_ecc_doc : string :=
"Computes the Euler characteristic curve along a given direction.

    Direction is given by normal vector. Begin by computing the dot product of the normal vector with the starting
    point. Incrementally increase starting vector to sweep along normal.

    A plane is given by the equation a*x+b*y+c*z+d=0 where [a,b,c] is the normal. [x, y, z] is the point that
    intersects the plane. Thus, we have to calculate d to find all points such that a*x+b*y+c*z+d<0.

    Subtract the number of edges from the number of points to obtain the Euler characteristic at each timestamp.

    Parameters
    ----------
    data : array-like

        Input point cloud. Points are assumed to be in order.

    end_time : scalar

        Start time is assumed to be 0. End time is the maximum value that the starting point is multiplied by.

    starting_point: array-like

        This is the center of the first plane

    normal: array-like

        The direction along which to sweep the plane

    Returns
    -------
    ecc : list

        The Euler characteristic curve in the given direction.
    ".

(** The [def] statement has a docstring and no statement after it: the
    body that runs at a call is the empty block. *)
Definition compute_ecc : pyfunc :=
  {| fn_name := "compute_ecc";
     fn_params := ["data"; "starting_point"; "end_time"; "normal"];
     fn_doc := Some compute_ecc_doc;
     fn_body := fun _ => ret Normal |}.

(** ** The contract of the written specification

    These definitions follow the words of the specification (section 4.1,
    Algorithm); they are what [compute_ecc] is compared with, and are not
    taken from the notebook, which has no algorithm. *)

Module Spec.

Definition point : Type := (Q * Q * Q)%type.

Definition dot (a b : point) : Q :=
  let '(a1, a2, a3) := a in
  let '(b1, b2, b3) := b in
  (a1 * b1 + a2 * b2 + a3 * b3)%Q.

(** [proj(p) = dot(normal, p) - dot(normal, starting_point)] *)
Definition proj (normal start p : point) : Q :=
  (dot normal p - dot normal start)%Q.

Definition Qltb (a b : Q) : bool :=
  match (a ?= b)%Q with
  | Lt => true
  | _ => false
  end.

(** A point is included at step [t] iff [proj(p) < t]. *)
Definition included (normal start : point) (t : Z) (p : point) : bool :=
  Qltb (proj normal start p) (inject_Z t).

Fixpoint point_count (normal start : point) (t : Z) (pts : list point) : Z :=
  match pts with
  | [] => 0
  | p :: rest =>
      (if included normal start t p then 1 else 0)
      + point_count normal start t rest
  end.

(** Adjacent pairs [(i, i+1)] with both endpoints included. *)
Fixpoint edge_count (normal start : point) (t : Z) (pts : list point) : Z :=
  match pts with
  | p :: rest =>
      match rest with
      | q :: _ =>
          (if included normal start t p && included normal start t q
           then 1 else 0)
          + edge_count normal start t rest
      | [] => 0
      end
  | [] => 0
  end.

Definition ecc_at (pts : list point) (start normal : point) (t : Z) : Z :=
  point_count normal start t pts - edge_count normal start t pts.

(** The samples [t = 0, 1, ..., end_time]. *)
Definition samples (end_time : Z) : list Z :=
  map Z.of_nat (seq 0 (Z.to_nat (end_time + 1))).

Definition ecc (pts : list point) (start : point) (end_time : Z)
  (normal : point) : list Z :=
  map (ecc_at pts start normal) (samples end_time).

Definition is_zero (v : point) : bool :=
  let '(a, b, c) := v in
  Qeq_bool a 0 && Qeq_bool b 0 && Qeq_bool c 0.

End Spec.

(** ** Reading the arguments of a call as the data of the contract *)

(** A finite float is the rational [(-1)^s * m * 2^e]. *)
Definition float_to_Q (f : spec_float) : option Q :=
  match f with
  | S754_zero _ => Some 0%Q
  | S754_finite s m e =>
      let mag :=
        if 0 <=? e then inject_Z (Z.pos m * 2 ^ e)
        else (Z.pos m # Z.to_pos (2 ^ (- e)))%Q in
      Some (if s then (- mag)%Q else mag)
  | S754_infinity _ => None
  | S754_nan => None
  end.

Definition as_number (v : value) : option Q :=
  match v with
  | VInt z => Some (inject_Z z)
  | VFloat f => float_to_Q f
  | _ => None
  end.

Definition as_point (w : world) (v : value) : option Spec.point :=
  match as_seq w v with
  | Some [x; y; z] =>
      match as_number x, as_number y, as_number z with
      | Some a, Some b, Some c => Some (a, b, c)
      | _, _, _ => None
      end
  | _ => None
  end.

Fixpoint as_point_list (w : world) (vs : list value)
  : option (list Spec.point) :=
  match vs with
  | [] => Some []
  | v :: rest =>
      match as_point w v, as_point_list w rest with
      | Some p, Some ps => Some (p :: ps)
      | _, _ => None
      end
  end.

Definition as_points (w : world) (v : value) : option (list Spec.point) :=
  match as_seq w v with
  | Some vs => as_point_list w vs
  | None => None
  end.

(** The input conditions the specification names. *)

Definition zero_normal (w : world) (normal : value) : bool :=
  match as_point w normal with
  | Some n => Spec.is_zero n
  | None => false
  end.

Definition empty_points (w : world) (data : value) : bool :=
  match as_seq w data with
  | Some [] => true
  | _ => false
  end.

Definition bad_end_time (end_time : value) : bool :=
  match end_time with
  | VInt z => z <? 0
  | VFloat (S754_finite s _ _) => s
  | VFloat (S754_infinity _) => true
  | VFloat S754_nan => true
  | _ => false
  end.

(** A valid input, decoded: non-empty points, non-zero normal,
    non-negative integer end time. *)
Record input : Type := mkInput {
  in_points : list Spec.point;
  in_start : Spec.point;
  in_end_time : Z;
  in_normal : Spec.point
}.

Definition valid_input (w : world) (data start end_time normal : value)
  : option input :=
  match as_points w data, as_point w start, end_time, as_point w normal with
  | Some (p :: ps), Some s, VInt t, Some n =>
      if (0 <=? t) && negb (Spec.is_zero n)
      then Some (mkInput (p :: ps) s t n)
      else None
  | _, _, _, _ => None
  end.

Definition spec_ecc (i : input) : list Z :=
  Spec.ecc (in_points i) (in_start i) (in_end_time i) (in_normal i).

(** ** What the claims ask of a call *)

(** A call of [compute_ecc] with its four positional arguments. *)
Definition run (data start end_time normal : value) : M value :=
  call compute_ecc [data; start; end_time; normal].

(** Every point is included at the final step. *)
Definition all_included (i : input) : bool :=
  forallb (Spec.included (in_normal i) (in_start i) (in_end_time i))
    (in_points i).

Definition in_bounds (i : input) (z : Z) : Prop :=
  - (Z.of_nat (length (in_points i)) - 1) <= z
  /\ z <= Z.of_nat (length (in_points i)).

Section Contracts.

Variable w : world.
Variables data start end_time normal : value.

(** The curve is [point_count - edge_count] at each sample. *)
Definition ecc_contract : Prop :=
  forall i, valid_input w data start end_time normal = Some i ->
    returns_seq (run data start end_time normal w) (map VInt (spec_ecc i)).

(** The curve has [end_time + 1] integer entries. *)
Definition length_contract : Prop :=
  forall i, valid_input w data start end_time normal = Some i ->
    exists zs, returns_seq (run data start end_time normal w) (map VInt zs)
      /\ length zs = Z.to_nat (in_end_time i + 1).

(** The first entry is 0 and the last is 1 once the sweep is complete. *)
Definition endpoints_contract : Prop :=
  forall i, valid_input w data start end_time normal = Some i ->
    all_included i = true ->
    exists zs, returns_seq (run data start end_time normal w) (map VInt zs)
      /\ zs !! 0%nat = Some 0
      /\ zs !! Z.to_nat (in_end_time i) = Some 1.

(** Every entry lies in [[-(n-1), n]]. *)
Definition bounds_contract : Prop :=
  forall i, valid_input w data start end_time normal = Some i ->
    exists zs, returns_seq (run data start end_time normal w) (map VInt zs)
      /\ Forall (in_bounds i) zs.

(** No partial result: no sequence comes back and nothing was changed. *)
Definition no_partial_result : Prop :=
  (forall l, ~ returns_seq (run data start end_time normal w) l)
  /\ snd (run data start end_time normal w) = w.

(** A zero normal, and only a zero normal, is rejected. *)
Definition direction_contract : Prop :=
  (zero_normal w normal = true ->
   fails_with (run data start end_time normal w) "InvalidDirectionError"
   /\ forall l, ~ returns_seq (run data start end_time normal w) l)
  /\ (fails_with (run data start end_time normal w) "InvalidDirectionError" ->
      zero_normal w normal = true).

(** A negative or non-finite end time is rejected. *)
Definition range_contract : Prop :=
  bad_end_time end_time = true ->
  fails_with (run data start end_time normal w) "InvalidRangeError"
  /\ no_partial_result.

(** An empty point sequence is rejected. *)
Definition empty_contract : Prop :=
  empty_points w data = true ->
  fails_with (run data start end_time normal w) "EmptyInputError"
  /\ no_partial_result.

End Contracts.

(** ** Concrete inputs *)

Definition triple (x y z : Z) : value := VTuple [VInt x; VInt y; VInt z].

(** The scenario of the specification: three points on the x axis. *)
Definition line3 : list value := [triple 0 0 0; triple 1 0 0; triple 2 0 0].

Definition w0 : world :=
  {| heap := {[ 1%positive := OList line3 ]} ∪ {[ 2%positive := OList [] ]};
     globals := ∅;
     stdout := [] |}.

Definition data0 : value := VRef 1%positive.
Definition nodata : value := VRef 2%positive.
Definition start0 : value := triple 0 0 0.
Definition normal0 : value := triple 1 0 0.
Definition zero3 : value := triple 0 0 0.

Definition input0 : input :=
  {| in_points := [(0, 0, 0); (1, 0, 0); (2, 0, 0)]%Q;
     in_start := (0, 0, 0)%Q;
     in_end_time := 3;
     in_normal := (1, 0, 0)%Q |}.

(** Calls made one after another, as for the several directions the
    notebook asks to compute the curve for; the results are collected in
    the order of the calls. *)
Fixpoint run_each (qs : list (value * value * value * value))
  : M (list value) :=
  match qs with
  | [] => ret []
  | (d, s, e, n) :: rest =>
      v <- run d s e n ;;
      vs <- run_each rest ;;
      ret (v :: vs)
  end.

Example valid_input0 :
  valid_input w0 data0 start0 (VInt 3) normal0 = Some input0.
Proof. vm_compute. reflexivity. Qed.

Example spec_ecc_input0 : spec_ecc input0 = [0; 1; 1; 1].
Proof. vm_compute. reflexivity. Qed.

(** ** Properties of the contract itself

    The curve the specification describes has the length, the bounds and
    the final value the specification states for it. *)

Section SpecFacts.

Variables normal start : Spec.point.
Variable t : Z.

Lemma point_count_range (pts : list Spec.point) :
  0 <= Spec.point_count normal start t pts <= Z.of_nat (length pts).
Proof.
  induction pts as [|p rest IH]; cbn [Spec.point_count length].
  - lia.
  - destruct (Spec.included normal start t p); lia.
Qed.

Lemma edge_count_step (p q : Spec.point) (rest : list Spec.point) :
  Spec.edge_count normal start t (p :: q :: rest)
  = (if Spec.included normal start t p && Spec.included normal start t q
     then 1 else 0)
    + Spec.edge_count normal start t (q :: rest).
Proof. reflexivity. Qed.

Lemma edge_count_range (p : Spec.point) (rest : list Spec.point) :
  0 <= Spec.edge_count normal start t (p :: rest) <= Z.of_nat (length rest).
Proof.
  revert p. induction rest as [|q rest IH]; intros p.
  - cbn. lia.
  - specialize (IH q). rewrite edge_count_step. cbn [length].
    destruct (Spec.included normal start t p && Spec.included normal start t q);
      lia.
Qed.

Lemma point_count_full (pts : list Spec.point) :
  forallb (Spec.included normal start t) pts = true ->
  Spec.point_count normal start t pts = Z.of_nat (length pts).
Proof.
  induction pts as [|p rest IH]; cbn [forallb Spec.point_count length].
  - reflexivity.
  - intros H. apply andb_prop in H as [Hp Hrest]. rewrite Hp, (IH Hrest). lia.
Qed.

Lemma edge_count_full (p : Spec.point) (rest : list Spec.point) :
  forallb (Spec.included normal start t) (p :: rest) = true ->
  Spec.edge_count normal start t (p :: rest) = Z.of_nat (length rest).
Proof.
  revert p. induction rest as [|q rest IH]; intros p H.
  - reflexivity.
  - cbn [forallb] in H. apply andb_prop in H as [Hp Hrest].
    pose proof (IH q Hrest) as IHq.
    cbn [forallb] in Hrest. apply andb_prop in Hrest as [Hq _].
    rewrite edge_count_step, IHq, Hp, Hq. cbn [andb length]. lia.
Qed.

(** Fully swept, a path of [n] points has [n - (n - 1) = 1]. *)
Lemma ecc_at_full (p : Spec.point) (rest : list Spec.point) :
  forallb (Spec.included normal start t) (p :: rest) = true ->
  Spec.ecc_at (p :: rest) start normal t = 1.
Proof.
  intros H. unfold Spec.ecc_at.
  rewrite (point_count_full _ H), (edge_count_full _ _ H).
  cbn [length]. lia.
Qed.

Lemma ecc_at_bounds (p : Spec.point) (rest : list Spec.point) :
  - (Z.of_nat (length (p :: rest)) - 1)
  <= Spec.ecc_at (p :: rest) start normal t
  <= Z.of_nat (length (p :: rest)).
Proof.
  unfold Spec.ecc_at.
  pose proof (point_count_range (p :: rest)).
  pose proof (edge_count_range p rest).
  cbn [length] in *. lia.
Qed.

End SpecFacts.

Lemma spec_ecc_length (i : input) :
  0 <= in_end_time i ->
  length (spec_ecc i) = Z.to_nat (in_end_time i + 1).
Proof.
  intros _. unfold spec_ecc, Spec.ecc, Spec.samples.
  now rewrite !length_map, length_seq.
Qed.

Lemma valid_input_inv (w : world) (d s e n : value) (i : input) :
  valid_input w d s e n = Some i ->
  (exists p rest, in_points i = p :: rest)
  /\ 0 <= in_end_time i
  /\ Spec.is_zero (in_normal i) = false.
Proof.
  unfold valid_input. intros H.
  destruct (as_points w d) as [[|p ps]|]; try discriminate.
  destruct (as_point w s) as [q|]; try discriminate.
  destruct e as [| | t | | | |]; try discriminate.
  destruct (as_point w n) as [m|]; try discriminate.
  destruct (0 <=? t) eqn:Ht; try discriminate.
  destruct (Spec.is_zero m) eqn:Hm; try discriminate.
  injection H as <-. cbn. repeat split; eauto. lia.
Qed.

Lemma spec_ecc_bounds (w : world) (d s e n : value) (i : input) :
  valid_input w d s e n = Some i ->
  Forall (in_bounds i) (spec_ecc i).
Proof.
  intros H. destruct (valid_input_inv _ _ _ _ _ _ H) as ((p & rest & Hp) & _).
  unfold spec_ecc, Spec.ecc, in_bounds. rewrite Hp.
  apply List.Forall_forall. intros z Hz. apply in_map_iff in Hz as (t & <- & _).
  apply ecc_at_bounds.
Qed.

Lemma spec_ecc_last (w : world) (d s e n : value) (i : input) :
  valid_input w d s e n = Some i ->
  all_included i = true ->
  nth_error (spec_ecc i) (Z.to_nat (in_end_time i)) = Some 1.
Proof.
  intros H Hall.
  destruct (valid_input_inv _ _ _ _ _ _ H) as ((p & rest & Hp) & Ht & _).
  unfold all_included in Hall. rewrite Hp in Hall.
  unfold spec_ecc, Spec.ecc, Spec.samples. rewrite Hp.
  rewrite !nth_error_map, nth_error_seq.
  destruct (Nat.ltb_spec (Z.to_nat (in_end_time i))
              (Z.to_nat (in_end_time i + 1))) as [_|Hge]; [|lia].
  cbn [option_map Nat.add]. rewrite Z2Nat.id by exact Ht.
  now rewrite (ecc_at_full _ _ _ _ _ Hall).
Qed.

(** The first entry is 0 only for a start that no point lies before:
    swept from beyond the last point, the path is complete at [t = 0]. *)
Example spec_ecc_start_beyond :
  Spec.ecc (in_points input0) (5, 0, 0)%Q 3 (in_normal input0) = [1; 1; 1; 1].
Proof. vm_compute. reflexivity. Qed.

(** ** What [compute_ecc] does *)

Section Calls.

Variables data start end_time normal : value.
Variable w : world.

(** The four arguments are bound, the empty body runs off its end, and
    the call returns [None] in the world it started in. *)
Lemma run_eq : run data start end_time normal w = (Returned VNone, w).
Proof. reflexivity. Qed.

Lemma run_no_failure : ~ fails (run data start end_time normal w).
Proof. rewrite run_eq. intros [e He]. discriminate He. Qed.

Lemma run_no_failure_with (cls : string) :
  ~ fails_with (run data start end_time normal w) cls.
Proof. rewrite run_eq. intros [msg He]. discriminate He. Qed.

Lemma run_no_sequence (l : list value) :
  ~ returns_seq (run data start end_time normal w) l.
Proof.
  rewrite run_eq. intros (v & Hv & Hseq). cbn in Hv.
  injection Hv as <-. discriminate Hseq.
Qed.

Lemma run_no_partial_result :
  no_partial_result w data start end_time normal.
Proof. split; [exact run_no_sequence | now rewrite run_eq]. Qed.

End Calls.

(** C3: for every data, starting point, end time and normal, valid or
    not, and in every world, the call returns [None] and raises nothing;
    the function has a docstring and a body that computes and checks
    nothing. *)
Theorem compute_ecc_returns_None (data start end_time normal : value)
  (w : world) :
  run data start end_time normal w = (Returned VNone, w)
  /\ ~ fails (run data start end_time normal w)
  /\ fn_doc compute_ecc = Some compute_ecc_doc
  /\ forall env w', fn_body compute_ecc env w' = (Returned Normal, w').
Proof.
  split; [apply run_eq|]. split; [apply run_no_failure|].
  split; reflexivity.
Qed.

(** The call behaves the same on the inputs the specification rejects. *)
Example compute_ecc_on_invalid_inputs :
  run nodata zero3 (VInt (-1)) zero3 w0 = (Returned VNone, w0)
  /\ run VNone VNone (VFloat S754_nan) VNone w0 = (Returned VNone, w0).
Proof. split; reflexivity. Qed.

(** C10: a call changes nothing (the heap objects behind data, starting
    point and normal, the globals and the output are as before), and
    calls with equal arguments return equal results, whether made from
    different worlds or one after the other. *)
Theorem compute_ecc_pure (data start end_time normal : value)
  (w w' : world) :
  snd (run data start end_time normal w) = w
  /\ fst (run data start end_time normal w)
     = fst (run data start end_time normal w')
  /\ fst (run data start end_time normal
            (snd (run data start end_time normal w)))
     = fst (run data start end_time normal w).
Proof. rewrite !run_eq. repeat split. Qed.

(** ** The contract against the code: the curve *)

(** C1: on the three-point scenario, a valid input, the call returns
    [None] and not the curve [point_count - edge_count] of the
    specification. *)
Theorem compute_ecc_misses_curve :
  valid_input w0 data0 start0 (VInt 3) normal0 = Some input0
  /\ run data0 start0 (VInt 3) normal0 w0 = (Returned VNone, w0)
  /\ ~ ecc_contract w0 data0 start0 (VInt 3) normal0.
Proof.
  split; [exact valid_input0|]. split; [reflexivity|].
  intros H. exact (run_no_sequence _ _ _ _ _ _ (H input0 valid_input0)).
Qed.

(** C2: on the same valid input, with end time 3, no sequence of
    [3 + 1] integers is returned (none of any length is). *)
Theorem compute_ecc_misses_length :
  run data0 start0 (VInt 3) normal0 w0 = (Returned VNone, w0)
  /\ ~ length_contract w0 data0 start0 (VInt 3) normal0.
Proof.
  split; [reflexivity|].
  intros H. destruct (H input0 valid_input0) as (zs & Hseq & _).
  exact (run_no_sequence _ _ _ _ _ _ Hseq).
Qed.

(** C7: on the same input every point is included at the final step,
    the curve of the specification starts at 0 and ends at 1, and the
    call returns nothing with a first entry 0 and a last entry 1. *)
Theorem compute_ecc_misses_endpoints :
  all_included input0 = true
  /\ spec_ecc input0 !! 0%nat = Some 0
  /\ spec_ecc input0 !! Z.to_nat (in_end_time input0) = Some 1
  /\ ~ endpoints_contract w0 data0 start0 (VInt 3) normal0.
Proof.
  split; [vm_compute; reflexivity|].
  split; [vm_compute; reflexivity|].
  split; [vm_compute; reflexivity|].
  intros H.
  assert (Hall : all_included input0 = true) by (vm_compute; reflexivity).
  destruct (H input0 valid_input0 Hall) as (zs & Hseq & _).
  exact (run_no_sequence _ _ _ _ _ _ Hseq).
Qed.

(** C8: for points [(0,0,0), (1,0,0), (2,0,0)], starting point
    [(0,0,0)], normal [(1,0,0)] and end time 3, the rule of the
    specification gives [[0, 1, 1, 1]]; the call returns [None], which is
    not that sequence. *)
Theorem compute_ecc_scenario :
  spec_ecc input0 = [0; 1; 1; 1]
  /\ run data0 start0 (VInt 3) normal0 w0 = (Returned VNone, w0)
  /\ ~ returns_seq (run data0 start0 (VInt 3) normal0 w0)
         [VInt 0; VInt 1; VInt 1; VInt 1].
Proof.
  split; [exact spec_ecc_input0|]. split; [reflexivity|].
  apply run_no_sequence.
Qed.

(** C9: on the same valid input, with [n = 3] points, the call returns
    no sequence of entries within [[-(n-1), n]]. *)
Theorem compute_ecc_misses_bounds :
  run data0 start0 (VInt 3) normal0 w0 = (Returned VNone, w0)
  /\ ~ bounds_contract w0 data0 start0 (VInt 3) normal0.
Proof.
  split; [reflexivity|].
  intros H. destruct (H input0 valid_input0) as (zs & Hseq & _).
  exact (run_no_sequence _ _ _ _ _ _ Hseq).
Qed.

(** ** The contract against the code: rejected inputs *)

(** C4, as stated, fails: with the zero vector as normal the call does
    not fail with InvalidDirectionError. *)
Lemma zero_normal_not_rejected :
  ~ direction_contract w0 data0 start0 (VInt 3) zero3.
Proof.
  intros [H _].
  assert (Hz : zero_normal w0 zero3 = true) by (vm_compute; reflexivity).
  destruct (H Hz) as [Hfail _].
  exact (run_no_failure_with _ _ _ _ _ _ Hfail).
Qed.

(** C4, amended: with the zero vector as normal the call raises nothing
    and returns no sequence; and no call at all fails with
    InvalidDirectionError. *)
Theorem compute_ecc_zero_normal (data start end_time normal : value)
  (w : world) :
  zero_normal w normal = true ->
  ~ fails (run data start end_time normal w)
  /\ (forall l, ~ returns_seq (run data start end_time normal w) l)
  /\ (forall d s e n w',
        ~ fails_with (run d s e n w') "InvalidDirectionError").
Proof.
  intros _. split; [apply run_no_failure|].
  split; [apply run_no_sequence|].
  intros d s e n w'. apply run_no_failure_with.
Qed.

Lemma compute_ecc_zero_normal_witness :
  zero_normal w0 zero3 = true
  /\ (~ fails (run data0 start0 (VInt 3) zero3 w0)
      /\ (forall l, ~ returns_seq (run data0 start0 (VInt 3) zero3 w0) l)
      /\ (forall d s e n w',
            ~ fails_with (run d s e n w') "InvalidDirectionError")).
Proof.
  split; [reflexivity|].
  apply (compute_ecc_zero_normal data0 start0 (VInt 3) zero3 w0).
  reflexivity.
Defined.

(** C5, as stated, fails: with end time -1 the call does not fail with
    InvalidRangeError. *)
Lemma negative_end_time_not_rejected :
  ~ range_contract w0 data0 start0 (VInt (-1)) normal0.
Proof.
  intros H.
  assert (Hb : bad_end_time (VInt (-1)) = true) by reflexivity.
  destruct (H Hb) as [Hfail _].
  exact (run_no_failure_with _ _ _ _ _ _ Hfail).
Qed.

(** C5, amended: with a negative or non-finite end time the call raises
    nothing, and produces no partial result: it returns no sequence and
    changes nothing. *)
Theorem compute_ecc_bad_end_time (data start end_time normal : value)
  (w : world) :
  bad_end_time end_time = true ->
  ~ fails (run data start end_time normal w)
  /\ no_partial_result w data start end_time normal.
Proof.
  intros _. split; [apply run_no_failure | apply run_no_partial_result].
Qed.

Lemma compute_ecc_bad_end_time_witness :
  bad_end_time (VFloat (S754_infinity false)) = true
  /\ (~ fails (run data0 start0 (VFloat (S754_infinity false)) normal0 w0)
      /\ no_partial_result w0 data0 start0 (VFloat (S754_infinity false))
           normal0).
Proof.
  split; [reflexivity|].
  apply (compute_ecc_bad_end_time data0 start0 (VFloat (S754_infinity false))
           normal0 w0).
  reflexivity.
Defined.

(** C6, as stated, fails: with an empty list of points the call does not
    fail with EmptyInputError. *)
Lemma empty_points_not_rejected :
  ~ empty_contract w0 nodata start0 (VInt 3) normal0.
Proof.
  intros H.
  assert (He : empty_points w0 nodata = true) by (vm_compute; reflexivity).
  destruct (H He) as [Hfail _].
  exact (run_no_failure_with _ _ _ _ _ _ Hfail).
Qed.

(** C6, amended: with an empty point sequence the call raises nothing,
    and produces no partial result: it returns no sequence and changes
    nothing. *)
Theorem compute_ecc_empty_points (data start end_time normal : value)
  (w : world) :
  empty_points w data = true ->
  ~ fails (run data start end_time normal w)
  /\ no_partial_result w data start end_time normal.
Proof.
  intros _. split; [apply run_no_failure | apply run_no_partial_result].
Qed.

Lemma compute_ecc_empty_points_witness :
  empty_points w0 nodata = true
  /\ (~ fails (run nodata start0 (VInt 3) normal0 w0)
      /\ no_partial_result w0 nodata start0 (VInt 3) normal0).
Proof.
  split; [vm_compute; reflexivity|].
  apply (compute_ecc_empty_points nodata start0 (VInt 3) normal0 w0).
  vm_compute; reflexivity.
Defined.

(** ** The signature: arity and parameter order *)



(** X2: a call returns, and then returns [None], exactly when it is given
    four arguments; it fails exactly when it is not, and the only
    exception it can raise is TypeError. *)
Theorem compute_ecc_returns_iff_arity (args : list value) (w : world) :
  (call compute_ecc args w = (Returned VNone, w) <-> length args = 4%nat)
  /\ (fails (call compute_ecc args w) <-> length args <> 4%nat)
  /\ (forall e, fst (call compute_ecc args w) = Raised e ->
       exn_class e = "TypeError").
Proof.
  destruct args as [|a [|b [|c [|d [|e rest]]]]]; cbn [length];
    (split; [split; [intros H; try discriminate H; reflexivity
                    | intros H; try discriminate H; reflexivity]|]);
    (split; [split; [intros [x Hx]; try discriminate Hx; lia
                    | intros H; try (now elim H); eexists; reflexivity]|]);
    intros x Hx; try discriminate Hx; cbn in Hx; now injection Hx as <-.
Qed.

(** X3: the four positional arguments are bound in the order of the
    signature: data, starting point, end time, normal (the docstring
    lists end time before starting point; the call does not). *)
Theorem compute_ecc_parameter_order (d s e n : value) :
  exists env,
    bind_params (fn_params compute_ecc) [d; s; e; n] = Some env
    /\ env !! "data" = Some d
    /\ env !! "starting_point" = Some s
    /\ env !! "end_time" = Some e
    /\ env !! "normal" = Some n
    /\ forall x, is_Some (env !! x) ->
         x ∈ ["data"; "starting_point"; "end_time"; "normal"].
Proof.
  eexists. split; [reflexivity|].
  repeat split; try (by simplify_map_eq).
  intros x [v Hv].
  destruct (decide (x = "data")) as [->|?]; [set_solver|].
  destruct (decide (x = "starting_point")) as [->|?]; [set_solver|].
  destruct (decide (x = "end_time")) as [->|?]; [set_solver|].
  destruct (decide (x = "normal")) as [->|?]; [set_solver|].
  by simplify_map_eq.
Qed.

(** ** Calls in sequence *)

(** X4: calls made one after another, for any argument quadruples, give
    one [None] per call and leave the state as it was: the curves of
    several directions, put together, hold nothing but [None]. *)
Theorem run_each_all_None (qs : list (value * value * value * value))
  (w : world) :
  run_each qs w = (Returned (repeat VNone (length qs)), w).
Proof.
  induction qs as [|[[[d s] e] n] rest IH]; [reflexivity|].
  cbn [run_each length repeat]. unfold bind at 1.
  rewrite run_eq. unfold bind at 1. rewrite IH. reflexivity.
Qed.
